(** * Session management of [src/contexts/AuthContext.tsx]

    A shallow embedding of the [AuthProvider] component: the token kept in
    [localStorage] under the key [authToken], the [user] state cell, the
    three network operations and [logout], followed by the properties of
    the session contract.

    The browser is modelled by what the component can observe of it:
    - a JavaScript value is a [jsval] (what [response.json()] can yield,
      plus [undefined]);
    - [localStorage] is a finite map from keys to strings;
    - [fetch] is a function from requests to outcomes, supplied by the
      environment;
    - an [async] function run to completion is one computation of the
      monad [M]; its pieces between one [await] and the next, and how
      they interleave with other operations, are modelled separately
      ([Pending], [astep]). *)

From Stdlib Require Import ZArith List.
From stdpp Require Import base option strings gmap.

Open Scope string_scope.
Open Scope Z_scope.

#[local] Set Warnings "-register-all".

(** ** JavaScript values *)

(** A number is kept as its canonical text (what [Number.prototype.toString]
    returns for it): the component only ever tests a number for truthiness
    and converts it to a string, and both are functions of that text
    ([+0] and [-0] both print as [0]). *)
Inductive jsval : Type :=
  | VUndefined
  | VNull
  | VBool (b : bool)
  | VNum (text : string)
  | VStr (s : string)
  | VArr (items : list jsval)
  | VObj (props : list (string * jsval)).

(** The exceptions the component can meet. [Error] is [new Error(message)];
    [TypeError] is raised by a property read on [null], by a failed
    conversion to a primitive and by a [fetch] that cannot reach the
    server; [SyntaxError] by [response.json()] on a body that is not
    JSON. *)
Inductive JsError : Type :=
  | Error (message : string)
  | TypeError
  | SyntaxError.

Inductive Result (A : Type) : Type :=
  | Ok (a : A)
  | Throw (e : JsError).
Arguments Ok {A} a.
Arguments Throw {A} e.

(** Own properties of an object, first match (a parsed object has each
    key once). *)
Fixpoint own_prop (k : string) (props : list (string * jsval)) : option jsval :=
  match props with
  | [] => None
  | (k', v) :: rest => if String.eqb k k' then Some v else own_prop k rest
  end.

(** [v.k] for the property names the component reads ([user], [token],
    [message]): none of them exists on a built-in prototype, so a
    primitive or an array yields [undefined]; reading from [null] or
    [undefined] throws. *)
Definition get_prop (v : jsval) (k : string) : Result jsval :=
  match v with
  | VUndefined | VNull => Throw TypeError
  | VObj props => Ok (default VUndefined (own_prop k props))
  | _ => Ok VUndefined
  end.

(** [!!v] *)
Definition truthy (v : jsval) : bool :=
  match v with
  | VUndefined | VNull => false
  | VBool b => b
  | VNum text => negb (String.eqb text "0" || String.eqb text "NaN")
  | VStr s => negb (String.eqb s EmptyString)
  | VArr _ | VObj _ => true
  end.

(** [a || b] *)
Definition js_or (a b : jsval) : jsval := if truthy a then a else b.

Fixpoint join (sep : string) (parts : list string) : string :=
  match parts with
  | [] => EmptyString
  | [p] => p
  | p :: rest => p ++ sep ++ join sep rest
  end.

(** The abstract operation ToString on values that come out of JSON. An
    array joins its elements with commas, [null] and [undefined] elements
    printing as nothing; a plain object prints as [[object Object]] unless
    an own property shadows [toString], which (not being callable) makes
    the conversion throw. *)
Fixpoint ToString (v : jsval) : Result string :=
  match v with
  | VUndefined => Ok "undefined"
  | VNull => Ok "null"
  | VBool true => Ok "true"
  | VBool false => Ok "false"
  | VNum text => Ok text
  | VStr s => Ok s
  | VArr items =>
      let fix elems (l : list jsval) : Result (list string) :=
        match l with
        | [] => Ok []
        | x :: rest =>
            let first :=
              match x with
              | VUndefined | VNull => Ok EmptyString
              | _ => ToString x
              end in
            match first with
            | Throw e => Throw e
            | Ok s =>
                match elems rest with
                | Throw e => Throw e
                | Ok ss => Ok (s :: ss)
                end
            end
        end in
      match elems items with
      | Throw e => Throw e
      | Ok ss => Ok (join "," ss)
      end
  | VObj props =>
      match own_prop "toString" props with
      | Some _ => Throw TypeError
      | None => Ok "[object Object]"
      end
  end.

(** The interface [User] of the source, as a predicate on values. *)
Definition is_string (v : jsval) : bool :=
  match v with VStr _ => true | _ => false end.

Definition is_role (v : jsval) : bool :=
  match v with
  | VStr s => String.eqb s "parent" || String.eqb s "child"
  | _ => false
  end.

Definition is_subscription (v : jsval) : bool :=
  match v with
  | VNull => true
  | VStr s => String.eqb s "free" || String.eqb s "basic" || String.eqb s "premium"
  | _ => false
  end.

Definition has_field (p : jsval -> bool) (k : string) (props : list (string * jsval)) : bool :=
  match own_prop k props with
  | Some v => p v
  | None => false
  end.

Definition is_User (v : jsval) : bool :=
  match v with
  | VObj props =>
      has_field is_string "id" props && has_field is_string "name" props
      && has_field is_string "email" props && has_field is_role "role" props
      && has_field is_subscription "subscription" props
  | _ => false
  end.

(** The declared type of the state cell, [User | null]. *)
Definition is_User_or_null (v : jsval) : bool :=
  match v with
  | VNull => true
  | _ => is_User v
  end.

(** ** The browser: network, storage, component state *)

Record Request : Type := {
  url : string;
  method : string;
  headers : list (string * string);
  (** the value handed to [JSON.stringify], if the request has a body *)
  body : option jsval
}.

(** A response as the component reads it: the status line and what
    [response.json()] settles to. *)
Record Response : Type := {
  status : Z;
  json : Result jsval
}.

(** [response.ok] *)
Definition ok (r : Response) : bool := (200 <=? status r) && (status r <=? 299).

(** What one [fetch] settles to: a response, or a rejection. *)
Definition Network : Type := Request -> Result Response.

(** Effects that leave the component. *)
Inductive Event : Type :=
  | EvFetch (req : Request)
  | EvSetItem (key value : string)
  | EvRemoveItem (key : string).

Record World : Type := {
  localStorage : gmap string string;
  (** the cell of [useState<User | null>(null)] *)
  user : jsval;
  trace : list Event
}.

Definition is_fetch (ev : Event) : bool :=
  match ev with EvFetch _ => true | _ => false end.

Definition is_storage_write (ev : Event) : bool :=
  match ev with EvSetItem _ _ | EvRemoveItem _ => true | EvFetch _ => false end.

(** The requests sent so far, and the writes made to the store so far. *)
Definition requests (w : World) : list Event := List.filter is_fetch (trace w).
Definition storage_writes (w : World) : list Event := List.filter is_storage_write (trace w).

(** ** Computations: state and exceptions *)

Definition M (A : Type) : Type := World -> Result A * World.

Definition ret {A} (a : A) : M A := fun w => (Ok a, w).

Definition throw {A} (e : JsError) : M A := fun w => (Throw e, w).

Definition bind {A B} (m : M A) (k : A -> M B) : M B :=
  fun w =>
    match m w with
    | (Ok a, w') => k a w'
    | (Throw e, w') => (Throw e, w')
    end.

(** [try { m } catch { h }]: the handler runs in the world the body left. *)
Definition try_catch {A} (m : M A) (h : JsError -> M A) : M A :=
  fun w =>
    match m w with
    | (Ok a, w') => (Ok a, w')
    | (Throw e, w') => h e w'
    end.

(** A value already computed, or the exception it raised. *)
Definition lift {A} (r : Result A) : M A := fun w => (r, w).

Notation "x <- m ;; k" := (bind m (fun x => k))
  (at level 100, m at next level, right associativity).
Notation "m ;; k" := (bind m (fun _ => k))
  (at level 100, right associativity).

Definition localStorage_getItem (key : string) : M (option string) :=
  fun w => (Ok (localStorage w !! key), w).

(** [localStorage.setItem(key, value)] converts [value] to a string. The
    store is taken to accept every write: the quota of the browser is not
    modelled. *)
Definition localStorage_setItem (key : string) (value : jsval) : M unit :=
  s <- lift (ToString value) ;;
  fun w =>
    (Ok tt, {| localStorage := <[key := s]> (localStorage w);
               user := user w;
               trace := trace w ++ [EvSetItem key s] |}).

Definition localStorage_removeItem (key : string) : M unit :=
  fun w =>
    (Ok tt, {| localStorage := delete key (localStorage w);
               user := user w;
               trace := trace w ++ [EvRemoveItem key] |}).

Definition setUser (v : jsval) : M unit :=
  fun w =>
    (Ok tt, {| localStorage := localStorage w; user := v; trace := trace w |}).

(** ** The component *)

Section AuthProvider.

Variable net : Network.

(** [await fetch(...)] *)
Definition fetch (req : Request) : M Response :=
  fun w =>
    (net req, {| localStorage := localStorage w;
                 user := user w;
                 trace := trace w ++ [EvFetch req] |}).

Definition saveToken (token : jsval) : M unit :=
  localStorage_setItem "authToken" token.

Definition getToken : M (option string) :=
  localStorage_getItem "authToken".

Definition removeToken : M unit :=
  localStorage_removeItem "authToken".

Definition fetchUserFromToken (token : string) : M unit :=
  try_catch
    (response <- fetch {| url := "/api/auth/me";
                          method := "GET";
                          headers := [("Authorization", "Bearer " ++ token)];
                          body := None |} ;;
     if negb (ok response) then
       removeToken ;;
       setUser VNull
     else
       data <- lift (json response) ;;
       u <- lift (get_prop data "user") ;;
       setUser u)
    (fun _ =>
       removeToken ;;
       setUser VNull).

(** [if (token)] on a [string | null] *)
Definition token_truthy (token : option string) : bool :=
  match token with
  | Some s => negb (String.eqb s EmptyString)
  | None => false
  end.

(** The mount effect (source lines 73-78); the spec calls it
    [initialize]. *)
Definition initialize : M unit :=
  token <- getToken ;;
  match token with
  | Some t => if token_truthy token then fetchUserFromToken t else ret tt
  | None => ret tt
  end.

Definition login (email password : string) : M unit :=
  response <- fetch {| url := "/api/auth/login";
                       method := "POST";
                       headers := [("Content-Type", "application/json")];
                       body := Some (VObj [("email", VStr email);
                                           ("password", VStr password)]) |} ;;
  if negb (ok response) then
    errorData <- lift (json response) ;;
    message <- lift (get_prop errorData "message") ;;
    text <- lift (ToString (js_or message (VStr "Login failed"))) ;;
    throw (Error text)
  else
    data <- lift (json response) ;;
    token <- lift (get_prop data "token") ;;
    saveToken token ;;
    u <- lift (get_prop data "user") ;;
    setUser u.

Definition register (name email password : string) : M unit :=
  response <- fetch {| url := "/api/auth/register";
                       method := "POST";
                       headers := [("Content-Type", "application/json")];
                       body := Some (VObj [("name", VStr name);
                                           ("email", VStr email);
                                           ("password", VStr password)]) |} ;;
  if negb (ok response) then
    errorData <- lift (json response) ;;
    message <- lift (get_prop errorData "message") ;;
    text <- lift (ToString (js_or message (VStr "Registration failed"))) ;;
    throw (Error text)
  else
    data <- lift (json response) ;;
    token <- lift (get_prop data "token") ;;
    saveToken token ;;
    u <- lift (get_prop data "user") ;;
    setUser u.

End AuthProvider.

Definition logout : M unit :=
  removeToken ;;
  setUser VNull.

(** The data of the context value handed to consumers (its three other
    members are the operations above). *)
Record AuthContextType : Type := {
  ctx_user : jsval;
  isAuthenticated : bool
}.

Definition value (w : World) : AuthContextType :=
  {| ctx_user := user w; isAuthenticated := truthy (user w) |}.

(** The world a fresh mount starts in: whatever the store holds, no user. *)
Definition mount (store : gmap string string) : World :=
  {| localStorage := store; user := VNull; trace := [] |}.

(** The persisted token. *)
Definition token_of (w : World) : option string := localStorage w !! "authToken".

(** ** Vocabulary of the contract *)

(** The three requests the component sends. *)
Definition me_request (token : string) : Request :=
  {| url := "/api/auth/me";
     method := "GET";
     headers := [("Authorization", "Bearer " ++ token)];
     body := None |}.

Definition login_request (email password : string) : Request :=
  {| url := "/api/auth/login";
     method := "POST";
     headers := [("Content-Type", "application/json")];
     body := Some (VObj [("email", VStr email); ("password", VStr password)]) |}.

Definition register_request (name email password : string) : Request :=
  {| url := "/api/auth/register";
     method := "POST";
     headers := [("Content-Type", "application/json")];
     body := Some (VObj [("name", VStr name); ("email", VStr email);
                         ("password", VStr password)]) |}.

(** The world once [req] has been sent and nothing else has happened. *)
Definition fetched (req : Request) (w : World) : World :=
  {| localStorage := localStorage w; user := user w;
     trace := trace w ++ [EvFetch req] |}.

(** The world once the token has been removed and the user reset. *)
Definition cleared (w : World) : World :=
  {| localStorage := delete "authToken" (localStorage w); user := VNull;
     trace := trace w ++ [EvRemoveItem "authToken"] |}.

(** The world once the user cell holds [u]. *)
Definition with_user (u : jsval) (w : World) : World :=
  {| localStorage := localStorage w; user := u; trace := trace w |}.

(** The world once [s] has been stored as the token. *)
Definition with_token (s : string) (w : World) : World :=
  {| localStorage := <["authToken" := s]> (localStorage w); user := user w;
     trace := trace w ++ [EvSetItem "authToken" s] |}.

(** A well-formed success of [GET /api/auth/me]: a 2xx response whose body
    is JSON with a [user] that is a [User]. *)
Definition well_formed_me (out : Result Response) : bool :=
  match out with
  | Ok r =>
      ok r &&
      match json r with
      | Ok d =>
          match get_prop d "user" with
          | Ok u => is_User u
          | Throw _ => false
          end
      | Throw _ => false
      end
  | Throw _ => false
  end.

(** The outcomes of [GET /api/auth/me] on which something throws inside
    the [try] block or the status is not 2xx: no response at all, a
    non-2xx status, a body that [response.json()] rejects, a body that is
    the JSON [null]. *)
Definition restore_failure (out : Result Response) : bool :=
  match out with
  | Throw _ => true
  | Ok r =>
      negb (ok r) ||
      match json r with
      | Throw _ => true
      | Ok VNull | Ok VUndefined => true
      | Ok _ => false
      end
  end.

(** The message of a rejection: the [message] of the body when it is a
    non-empty string, the operation's generic text otherwise. *)
Definition message_or (m : jsval) (generic : string) : string :=
  match m with
  | VStr s => if String.eqb s EmptyString then generic else s
  | _ => generic
  end.

(** The message the server supplied with a response, if any. *)
Definition server_message (r : Response) : jsval :=
  match json r with
  | Ok (VObj props) => default VUndefined (own_prop "message" props)
  | _ => VUndefined
  end.

(** Restoration as the spec words it: every outcome but a well-formed
    success clears the token and the user, silently. *)
Definition restore_clears_unless_well_formed : Prop :=
  forall (net : Network) (token : string) (w : World),
    well_formed_me (net (me_request token)) = false ->
    fst (fetchUserFromToken net token w) = Ok tt
    /\ token_of (snd (fetchUserFromToken net token w)) = None
    /\ user (snd (fetchUserFromToken net token w)) = VNull.

(** A rejected login as the spec words it: on every non-2xx response the
    call fails with an [Error] carrying the server's message or the
    generic one. *)
Definition login_rejection_carries_message : Prop :=
  forall (net : Network) (email password : string) (w : World) (r : Response),
    net (login_request email password) = Ok r ->
    ok r = false ->
    fst (login net email password w)
      = Throw (Error (message_or (server_message r) "Login failed"))
    /\ user (snd (login net email password w)) = user w
    /\ localStorage (snd (login net email password w)) = localStorage w.

(** The session invariant: no token, no user. *)
Definition consistent (w : World) : Prop :=
  token_of w = None -> user w = VNull.


(** The operations of the session manager. [OpRestore] is the call of
    [fetchUserFromToken] that [initialize] makes. *)
Inductive op : Type :=
  | OpInitialize
  | OpRestore (token : string)
  | OpLogin (email password : string)
  | OpRegister (name email password : string)
  | OpLogout.

Definition run_op (net : Network) (o : op) : M unit :=
  match o with
  | OpInitialize => initialize net
  | OpRestore token => fetchUserFromToken net token
  | OpLogin email password => login net email password
  | OpRegister name email password => register net name email password
  | OpLogout => logout
  end.

(** [fetchUserFromToken] is private to the component; its one call site
    passes the token just read from the store, and only a truthy one. *)
Definition enabled (o : op) (w : World) : bool :=
  match o with
  | OpRestore token =>
      bool_decide (token_of w = Some token) && token_truthy (Some token)
  | _ => true
  end.

(** One operation, run to completion against some network, with nothing
    else running at its [await]s (for that, see [astep]). *)
Inductive step : World -> World -> Prop :=
  | step_op (net : Network) (o : op) (w : World) :
      enabled o w = true -> step w (snd (run_op net o w)).

Inductive reachable (store : gmap string string) : World -> Prop :=
  | reach_mount : reachable store (mount store)
  | reach_step (w w' : World) :
      reachable store w -> step w w' -> reachable store w'.

(** A network whose successful bodies carry a [User]. *)
Definition typed_net (net : Network) : Prop :=
  forall req r d,
    net req = Ok r -> ok r = true -> json r = Ok d ->
    exists u, get_prop d "user" = Ok u /\ is_User u = true.

(** The request a login or a registration sends. *)
Definition auth_request (o : op) : option Request :=
  match o with
  | OpLogin email password => Some (login_request email password)
  | OpRegister name email password => Some (register_request name email password)
  | _ => None
  end.


(** What [login] and [register] throw on a non-2xx response [r]: whatever
    reading the body or building the message throws, else the [Error]. *)
Definition rejection (generic : string) (r : Response) : JsError :=
  match json r with
  | Throw e => e
  | Ok errorData =>
      match get_prop errorData "message" with
      | Throw e => e
      | Ok message =>
          match ToString (js_or message (VStr generic)) with
          | Throw e => e
          | Ok text => Error text
          end
      end
  end.

(** The common shape of [login] and [register], used to reason about both
    at once. *)
Definition credentials_call (net : Network) (req : Request) (generic : string) : M unit :=
  response <- fetch net req ;;
  if negb (ok response) then
    errorData <- lift (json response) ;;
    message <- lift (get_prop errorData "message") ;;
    text <- lift (ToString (js_or message (VStr generic))) ;;
    throw (Error text)
  else
    data <- lift (json response) ;;
    token <- lift (get_prop data "token") ;;
    saveToken token ;;
    u <- lift (get_prop data "user") ;;
    setUser u.

(** ** The hook and the page reload *)

(** [useContext(AuthContext)] in a component whose enclosing
    [AuthProvider]s are [enclosing], innermost first: the value of the
    nearest one, or the [null] given to [createContext]. *)
Definition useContext (enclosing : list World) : option AuthContextType :=
  match enclosing with
  | [] => None
  | w :: _ => Some (value w)
  end.

Definition useAuth (enclosing : list World) : Result AuthContextType :=
  match useContext enclosing with
  | None => Throw (Error "useAuth must be used within an AuthProvider")
  | Some context => Ok context
  end.

(** A page reload: [localStorage] persists, the provider mounts again and
    its cell starts from [useState(null)]. The trace is kept, to speak of
    the requests of both page loads. *)
Definition reload (w : World) : World :=
  {| localStorage := localStorage w; user := VNull; trace := trace w |}.

(** The worlds an operation can end in, as changes to the world it
    started from. *)
Inductive left_behind (w : World) : World -> Prop :=
  | lb_nothing : left_behind w w
  | lb_logout : left_behind w (cleared w)
  | lb_request req : left_behind w (fetched req w)
  | lb_cleared req : left_behind w (cleared (fetched req w))
  | lb_user req u : left_behind w (with_user u (fetched req w))
  | lb_session req s u :
      left_behind w (with_user u (with_token s (fetched req w))).

(** ** Suspension at [await] *)

(** An [async] function of the component gives control back at each
    [await]; until what it waits for settles, event handlers and other
    [async] functions run. What a suspended function waits for: *)
Inductive Pending : Type :=
  | MeFetch (token : string)
      (** [fetchUserFromToken] at [await fetch(...)] *)
  | MeJson (response : Response)
      (** [fetchUserFromToken] at [await response.json()] *)
  | CallFetch (req : Request) (generic : string)
      (** [login] or [register] at [await fetch(...)] *)
  | CallJson (response : Response) (generic : string).
      (** [login] or [register] at [await response.json()], in either
          branch *)

(** A piece of an [async] function, from one suspension to the next: it
    ends suspended again ([Some]), returned ([None]) or rejected. *)
Definition Async : Type := M (option Pending).

Definition fetchUserFromToken_begin (token : string) : Async :=
  fun w => (Ok (Some (MeFetch token)), fetched (me_request token) w).

Definition fetchUserFromToken_fetched (out : Result Response) : Async :=
  try_catch
    (response <- lift out ;;
     if negb (ok response) then
       removeToken ;;
       setUser VNull ;;
       ret None
     else
       ret (Some (MeJson response)))
    (fun _ =>
       removeToken ;;
       setUser VNull ;;
       ret None).

Definition fetchUserFromToken_parsed (parsed : Result jsval) : Async :=
  try_catch
    (data <- lift parsed ;;
     u <- lift (get_prop data "user") ;;
     setUser u ;;
     ret None)
    (fun _ =>
       removeToken ;;
       setUser VNull ;;
       ret None).

Definition credentials_call_begin (req : Request) (generic : string) : Async :=
  fun w => (Ok (Some (CallFetch req generic)), fetched req w).

Definition credentials_call_fetched (generic : string) (out : Result Response) : Async :=
  response <- lift out ;;
  ret (Some (CallJson response generic)).

Definition credentials_call_parsed (generic : string) (response : Response)
    (parsed : Result jsval) : Async :=
  if negb (ok response) then
    errorData <- lift parsed ;;
    message <- lift (get_prop errorData "message") ;;
    text <- lift (ToString (js_or message (VStr generic))) ;;
    throw (Error text)
  else
    data <- lift parsed ;;
    token <- lift (get_prop data "token") ;;
    saveToken token ;;
    u <- lift (get_prop data "user") ;;
    setUser u ;;
    ret None.

(** An operation up to its first [await] ([logout] has none). *)
Definition begin (o : op) : Async :=
  match o with
  | OpInitialize =>
      token <- getToken ;;
      match token with
      | Some t =>
          if token_truthy token then fetchUserFromToken_begin t else ret None
      | None => ret None
      end
  | OpRestore token => fetchUserFromToken_begin token
  | OpLogin email password =>
      credentials_call_begin (login_request email password) "Login failed"
  | OpRegister name email password =>
      credentials_call_begin (register_request name email password)
        "Registration failed"
  | OpLogout =>
      logout ;;
      ret None
  end.

(** A suspended function goes on once what it waits for has settled. *)
Definition resume (net : Network) (p : Pending) : Async :=
  match p with
  | MeFetch token => fetchUserFromToken_fetched (net (me_request token))
  | MeJson response => fetchUserFromToken_parsed (json response)
  | CallFetch req generic => credentials_call_fetched generic (net req)
  | CallJson response generic =>
      credentials_call_parsed generic response (json response)
  end.

(** The component with its suspended functions. *)
Record Config : Type := {
  world : World;
  pending : list Pending
}.

Definition settle (others : list Pending) (r : Result (option Pending) * World) : Config :=
  {| world := snd r;
     pending := match fst r with
                | Ok (Some p) => p :: others
                | _ => others
                end |}.

(** One turn of the event loop: an operation is started, or one of the
    suspended functions goes on, against a network that satisfies [P]. *)
Inductive astep (P : Network -> Prop) : Config -> Config -> Prop :=
  | astep_begin (o : op) (c : Config) :
      enabled o (world c) = true ->
      astep P c (settle (pending c) (begin o (world c)))
  | astep_resume (net : Network) (p : Pending) (before after : list Pending)
      (c : Config) :
      P net -> pending c = (before ++ p :: after)%list ->
      astep P c (settle (before ++ after) (resume net p (world c))).

Inductive areachable (P : Network -> Prop) (store : gmap string string) : Config -> Prop :=
  | areach_mount : areachable P store {| world := mount store; pending := [] |}
  | areach_step (c c' : Config) :
      areachable P store c -> astep P c c' -> areachable P store c'.


(** An operation started and taken through its suspensions with nothing
    in between. *)
Definition advance (net : Network) (r : Result (option Pending) * World) :
    Result (option Pending) * World :=
  match fst r with
  | Ok (Some p) => resume net p (snd r)
  | _ => r
  end.

Definition run_alone (net : Network) (o : op) : M unit :=
  fun w =>
    let r := advance net (advance net (begin o w)) in
    (match fst r with Ok _ => Ok tt | Throw e => Throw e end, snd r).

(** A response whose body, if the status is 2xx and the body is JSON,
    carries a [User]; a suspended function that holds such a response. *)
Definition typed_response (r : Response) : Prop :=
  ok r = true ->
  forall d, json r = Ok d ->
    exists u, get_prop d "user" = Ok u /\ is_User u = true.

Definition typed_pending (p : Pending) : Prop :=
  match p with
  | MeJson r => ok r = true /\ typed_response r
  | CallJson r _ => typed_response r
  | _ => True
  end.


(** The flag as the spec words it: in every state the component can
    reach, [isAuthenticated] says that the user is not [null]. *)
Definition flag_is_user_presence : Prop :=
  forall store w,
    reachable store w ->
    (isAuthenticated (value w) = true <-> ctx_user (value w) <> VNull).

(** ** Sample data *)

Definition ann : jsval :=
  VObj [("id", VStr "1"); ("name", VStr "Ann"); ("email", VStr "ann@x.com");
        ("role", VStr "parent"); ("subscription", VNull)].

Definition always (out : Result Response) : Network := fun _ => out.

Definition session_ok : Response :=
  {| status := 200; json := Ok (VObj [("token", VStr "t1"); ("user", ann)]) |}.

Definition empty_object_ok : Response :=
  {| status := 200; json := Ok (VObj []) |}.

Definition not_json_ok : Response :=
  {| status := 200; json := Throw SyntaxError |}.

Definition invalid_credentials : Response :=
  {| status := 401;
     json := Ok (VObj [("message", VStr "Invalid credentials")]) |}.

Definition not_json_500 : Response :=
  {| status := 500; json := Throw SyntaxError |}.

Definition signed_in : World :=
  {| localStorage := {["authToken" := "t0"]}; user := ann; trace := [] |}.

Definition returning : World := mount {["authToken" := "t0"]}.

Definition first_visit : World := mount ∅.

Definition null_body_ok : Response :=
  {| status := 200; json := Ok VNull |}.

Definition email_taken : Response :=
  {| status := 409;
     json := Ok (VObj [("message", VStr "Email already registered")]) |}.

Definition with_theme : World :=
  {| localStorage := <["theme" := "dark"]> {["authToken" := "t0"]};
     user := ann; trace := [] |}.

Definition blank_token : World := mount {["authToken" := EmptyString]}.

Definition zero_user_ok : Response :=
  {| status := 200;
     json := Ok (VObj [("token", VStr "t1"); ("user", VNum "0")]) |}.


(** A first login, taken through its two suspensions. *)
Definition logged_in : Config :=
  let c0 := {| world := first_visit; pending := [] |} in
  let c1 := settle (pending c0) (begin (OpLogin "ann@x.com" "pw") (world c0)) in
  let c2 :=
    settle [] (resume (always (Ok session_ok))
                 (CallFetch (login_request "ann@x.com" "pw") "Login failed")
                 (world c1)) in
  settle [] (resume (always (Ok session_ok)) (CallJson session_ok "Login failed")
               (world c2)).

(** ** How each operation runs *)

Ltac run_M :=
  unfold fetchUserFromToken, login, register, initialize, logout,
    saveToken, getToken, removeToken,
    localStorage_setItem, localStorage_getItem, localStorage_removeItem,
    setUser, fetch, try_catch, bind, lift, ret, throw;
  simpl.

Lemma requests_cleared w : requests (cleared w) = requests w.
Proof. unfold requests, cleared; simpl. rewrite List.filter_app; simpl. apply app_nil_r. Qed.

Lemma storage_writes_fetched req w : storage_writes (fetched req w) = storage_writes w.
Proof. unfold storage_writes, fetched; simpl. rewrite List.filter_app; simpl. apply app_nil_r. Qed.

Lemma token_of_cleared w : token_of (cleared w) = None.
Proof. unfold token_of, cleared; simpl. apply lookup_delete_eq. Qed.

Lemma token_of_with_token s w : token_of (with_token s w) = Some s.
Proof. unfold token_of, with_token; simpl. apply lookup_insert_eq. Qed.

Lemma logout_runs w : logout w = (Ok tt, cleared w).
Proof. reflexivity. Qed.

(** Restoration when the status is bad or something throws in the [try]
    block: both branches end in the same two calls. *)
Lemma fetchUserFromToken_cleared net token w :
  restore_failure (net (me_request token)) = true ->
  fetchUserFromToken net token w = (Ok tt, cleared (fetched (me_request token) w)).
Proof.
  unfold restore_failure. run_M. fold (me_request token).
  destruct (net (me_request token)) as [r|e]; [|reflexivity].
  destruct (ok r); simpl; [|reflexivity].
  destruct (json r) as [d|e]; [|reflexivity].
  destruct d; simpl; intros H; try discriminate H; reflexivity.
Qed.

(** Restoration when the response is 2xx and [data.user] can be read. *)
Lemma fetchUserFromToken_restored net token w r d u :
  net (me_request token) = Ok r -> ok r = true -> json r = Ok d ->
  get_prop d "user" = Ok u ->
  fetchUserFromToken net token w
    = (Ok tt, with_user u (fetched (me_request token) w)).
Proof.
  intros Hnet Hok Hjson Hu. run_M. fold (me_request token).
  rewrite Hnet, Hok; simpl. rewrite Hjson, Hu. reflexivity.
Qed.

(** Every outcome of [GET /api/auth/me] is of one of the two kinds. *)
Lemma restore_failure_or_readable out :
  restore_failure out = true
  \/ exists r d u, out = Ok r /\ ok r = true /\ json r = Ok d
                   /\ get_prop d "user" = Ok u.
Proof.
  destruct out as [r|e]; [|left; reflexivity]. unfold restore_failure.
  destruct (ok r) eqn:Hok; simpl; [|left; reflexivity].
  destruct (json r) as [d|e] eqn:Hjson; [|left; reflexivity].
  destruct d; try (left; reflexivity); right; eauto 10.
Qed.

(** [fetchUserFromToken] never rejects. *)
Lemma fetchUserFromToken_never_throws net token w :
  fst (fetchUserFromToken net token w) = Ok tt.
Proof.
  destruct (restore_failure_or_readable (net (me_request token)))
    as [H|(r & d & u & Hnet & Hok & Hjson & Hu)].
  - rewrite fetchUserFromToken_cleared by exact H. reflexivity.
  - erewrite fetchUserFromToken_restored by eassumption. reflexivity.
Qed.

(** A 2xx body that parses to anything but [null] is taken as it is: the
    stored token stays, whatever [data.user] turns out to be. *)
Lemma fetchUserFromToken_keeps_token net token w :
  restore_failure (net (me_request token)) = false ->
  token_of (snd (fetchUserFromToken net token w)) = token_of w.
Proof.
  intros Hf.
  destruct (restore_failure_or_readable (net (me_request token)))
    as [H|(r & d & u & Hnet & Hok & Hjson & Hu)]; [congruence|].
  erewrite fetchUserFromToken_restored by eassumption. reflexivity.
Qed.

Lemma initialize_without_token net w :
  token_of w = None -> initialize net w = (Ok tt, w).
Proof. unfold token_of. run_M. intros ->. reflexivity. Qed.

Lemma initialize_with_token net w t :
  token_of w = Some t -> token_truthy (Some t) = true ->
  initialize net w = fetchUserFromToken net t w.
Proof.
  unfold token_of, initialize, getToken, localStorage_getItem, bind.
  intros -> Ht. rewrite Ht. reflexivity.
Qed.

Lemma initialize_with_empty_token net w :
  token_of w = Some EmptyString -> initialize net w = (Ok tt, w).
Proof. unfold token_of. run_M. intros ->. reflexivity. Qed.

Lemma login_shape net email password :
  login net email password
    = credentials_call net (login_request email password) "Login failed".
Proof. reflexivity. Qed.

Lemma register_shape net name email password :
  register net name email password
    = credentials_call net (register_request name email password)
        "Registration failed".
Proof. reflexivity. Qed.

Lemma credentials_call_rejected net req generic w r :
  net req = Ok r -> ok r = false ->
  credentials_call net req generic w = (Throw (rejection generic r), fetched req w).
Proof.
  intros Hnet Hok. unfold credentials_call, rejection. run_M.
  rewrite Hnet, Hok; simpl.
  destruct (json r) as [d|e]; [|reflexivity].
  destruct (get_prop d "message") as [m|e]; [|reflexivity].
  destruct (ToString (js_or m (VStr generic))); reflexivity.
Qed.

Lemma credentials_call_unreachable net req generic w e :
  net req = Throw e ->
  credentials_call net req generic w = (Throw e, fetched req w).
Proof. intros Hnet. unfold credentials_call. run_M. rewrite Hnet. reflexivity. Qed.

Lemma credentials_call_not_json net req generic w r e :
  net req = Ok r -> ok r = true -> json r = Throw e ->
  credentials_call net req generic w = (Throw e, fetched req w).
Proof.
  intros Hnet Hok Hjson. unfold credentials_call. run_M.
  rewrite Hnet, Hok; simpl. rewrite Hjson. reflexivity.
Qed.

Lemma credentials_call_accepted net req generic w r d tok s u :
  net req = Ok r -> ok r = true -> json r = Ok d ->
  get_prop d "token" = Ok tok -> ToString tok = Ok s ->
  get_prop d "user" = Ok u ->
  credentials_call net req generic w
    = (Ok tt, with_user u (with_token s (fetched req w))).
Proof.
  intros Hnet Hok Hjson Htok Hs Hu. unfold credentials_call. run_M.
  rewrite Hnet, Hok; simpl. rewrite Hjson, Htok, Hs; simpl. rewrite Hu.
  reflexivity.
Qed.

(** A property read that succeeds for one name succeeds for any other. *)
Lemma get_prop_total d k k' v :
  get_prop d k = Ok v -> exists v', get_prop d k' = Ok v'.
Proof. destruct d; simpl; intros H; try discriminate H; eauto. Qed.

(** The call either throws, having only sent the request, or resolves,
    having written the token and the user of one response body. *)
Lemma credentials_call_outcome net req generic w :
  (exists e, credentials_call net req generic w = (Throw e, fetched req w))
  \/ (exists r d tok s u,
        net req = Ok r /\ ok r = true /\ json r = Ok d
        /\ get_prop d "token" = Ok tok /\ ToString tok = Ok s
        /\ get_prop d "user" = Ok u
        /\ credentials_call net req generic w
             = (Ok tt, with_user u (with_token s (fetched req w)))).
Proof.
  destruct (net req) as [r|e] eqn:Hnet;
    [|left; eauto using credentials_call_unreachable].
  destruct (ok r) eqn:Hok;
    [|left; eauto using credentials_call_rejected].
  destruct (json r) as [d|e] eqn:Hjson;
    [|left; eauto using credentials_call_not_json].
  destruct (get_prop d "token") as [tok|e] eqn:Htok.
  - destruct (get_prop_total _ _ "user" _ Htok) as [u Hu].
    destruct (ToString tok) as [s|e] eqn:Hs.
    + right. exists r, d, tok, s, u.
      eauto 10 using credentials_call_accepted.
    + left. exists e. unfold credentials_call. run_M.
      rewrite Hnet, Hok; simpl. rewrite Hjson, Htok, Hs. reflexivity.
  - left. exists e. unfold credentials_call. run_M.
    rewrite Hnet, Hok; simpl. rewrite Hjson, Htok. reflexivity.
Qed.

Lemma rejection_message generic r d m :
  json r = Ok d -> get_prop d "message" = Ok m ->
  is_string m || negb (truthy m) = true ->
  rejection generic r = Error (message_or m generic).
Proof.
  intros Hjson Hm Hty. unfold rejection, js_or. rewrite Hjson, Hm.
  destruct (truthy m) eqn:Ht.
  - destruct m; try discriminate Hty. simpl in Ht. unfold message_or.
    destruct (String.eqb s EmptyString); [discriminate Ht | reflexivity].
  - destruct m; try reflexivity. simpl in Ht. unfold message_or.
    destruct (String.eqb s EmptyString); [reflexivity | discriminate Ht].
Qed.

Lemma rejection_not_json generic r e :
  json r = Throw e -> rejection generic r = e.
Proof. intros Hjson. unfold rejection. rewrite Hjson. reflexivity. Qed.

(** ** The invariant, operation by operation *)

Lemma consistent_cleared w : consistent (cleared w).
Proof. intros _. reflexivity. Qed.

Lemma consistent_fetched req w : consistent w -> consistent (fetched req w).
Proof. intros H. exact H. Qed.

Lemma consistent_with_token u s w : consistent (with_user u (with_token s w)).
Proof.
  unfold consistent, token_of; simpl. rewrite lookup_insert_eq. discriminate.
Qed.

Lemma restore_consistent net token w :
  token_of w = Some token ->
  consistent (snd (fetchUserFromToken net token w)).
Proof.
  intros Htok.
  destruct (restore_failure_or_readable (net (me_request token)))
    as [H|(r & d & u & Hnet & Hok & Hjson & Hu)].
  - rewrite fetchUserFromToken_cleared by exact H. apply consistent_cleared.
  - erewrite fetchUserFromToken_restored by eassumption.
    unfold consistent, token_of in *; simpl. rewrite Htok. discriminate.
Qed.

Lemma credentials_call_consistent net req generic w :
  consistent w -> consistent (snd (credentials_call net req generic w)).
Proof.
  intros Hw.
  destruct (credentials_call_outcome net req generic w)
    as [[e ->]|(r & d & tok & s & u & _ & _ & _ & _ & _ & _ & ->)]; simpl.
  - apply consistent_fetched, Hw.
  - apply consistent_with_token.
Qed.

Lemma enabled_restore token w :
  enabled (OpRestore token) w = true ->
  token_of w = Some token /\ token_truthy (Some token) = true.
Proof.
  unfold enabled. intros H. apply andb_prop in H as [H1 H2].
  split; [apply bool_decide_eq_true in H1; exact H1 | exact H2].
Qed.

Lemma run_op_consistent net o w :
  consistent w -> enabled o w = true -> consistent (snd (run_op net o w)).
Proof.
  intros Hw Hen. destruct o as [|token|email password|name email password|]; simpl.
  - destruct (token_of w) as [t|] eqn:Htok.
    + destruct (token_truthy (Some t)) eqn:Ht.
      * rewrite (initialize_with_token net w t Htok Ht).
        apply restore_consistent, Htok.
      * unfold initialize, getToken, localStorage_getItem, bind.
        unfold token_of in Htok. rewrite Htok, Ht. exact Hw.
    + rewrite initialize_without_token by exact Htok. exact Hw.
  - apply restore_consistent. apply enabled_restore in Hen. tauto.
  - rewrite login_shape. apply credentials_call_consistent, Hw.
  - rewrite register_shape. apply credentials_call_consistent, Hw.
  - exact (consistent_cleared w).
Qed.

Lemma step_consistent w w' : consistent w -> step w w' -> consistent w'.
Proof. intros Hw Hstep. destruct Hstep. apply run_op_consistent; assumption. Qed.

(** Every world the component can reach from a mount is consistent. *)
Lemma reachable_consistent store w : reachable store w -> consistent w.
Proof.
  induction 1 as [|w w' _ IH Hstep].
  - intros _. reflexivity.
  - eapply step_consistent; eassumption.
Qed.

(** ** The declared type of the user cell *)

Lemma is_User_truthy u : is_User u = true -> truthy u = true.
Proof. destruct u; simpl; intros H; try discriminate H; reflexivity. Qed.

Lemma typed_truthy v :
  is_User_or_null v = true -> (truthy v = true <-> v <> VNull).
Proof.
  destruct v; simpl; intros H; try discriminate H; split;
    congruence.
Qed.

Lemma restore_typed net token w :
  typed_net net -> is_User_or_null (user w) = true ->
  is_User_or_null (user (snd (fetchUserFromToken net token w))) = true.
Proof.
  intros Hnet Hw.
  destruct (restore_failure_or_readable (net (me_request token)))
    as [H|(r & d & u & Hr & Hok & Hjson & Hu)].
  - rewrite fetchUserFromToken_cleared by exact H. reflexivity.
  - erewrite fetchUserFromToken_restored by eassumption; simpl.
    destruct (Hnet _ _ _ Hr Hok Hjson) as (u' & Hu' & Hty).
    rewrite Hu in Hu'. injection Hu' as ->.
    destruct u'; try discriminate Hty; exact Hty.
Qed.

Lemma credentials_call_typed net req generic w :
  typed_net net -> is_User_or_null (user w) = true ->
  is_User_or_null (user (snd (credentials_call net req generic w))) = true.
Proof.
  intros Hnet Hw.
  destruct (credentials_call_outcome net req generic w)
    as [[e ->]|(r & d & tok & s & u & Hr & Hok & Hjson & _ & _ & Hu & ->)]; simpl.
  - exact Hw.
  - destruct (Hnet _ _ _ Hr Hok Hjson) as (u' & Hu' & Hty).
    rewrite Hu in Hu'. injection Hu' as ->.
    destruct u'; try discriminate Hty; exact Hty.
Qed.

(** With a server that answers as the API table says, the user cell keeps
    its declared type. *)
Lemma run_op_typed net o w :
  typed_net net -> is_User_or_null (user w) = true ->
  is_User_or_null (user (snd (run_op net o w))) = true.
Proof.
  intros Hnet Hw. destruct o as [|token|email password|name email password|]; simpl.
  - destruct (token_of w) as [t|] eqn:Htok.
    + destruct (token_truthy (Some t)) eqn:Ht.
      * rewrite (initialize_with_token net w t Htok Ht).
        apply restore_typed; assumption.
      * unfold initialize, getToken, localStorage_getItem, bind.
        unfold token_of in Htok. rewrite Htok, Ht. exact Hw.
    + rewrite initialize_without_token by exact Htok. exact Hw.
  - apply restore_typed; assumption.
  - rewrite login_shape. apply credentials_call_typed; assumption.
  - rewrite register_shape. apply credentials_call_typed; assumption.
  - reflexivity.
Qed.

(** ** Suspension at [await]: the pieces and the whole *)

(** Taken through its suspensions with nothing in between, an operation
    is the operation run to completion. *)
Lemma run_alone_is_run_op net o w : run_alone net o w = run_op net o w.
Proof.
  destruct o as [|token|email password|name email password|];
    unfold run_alone, advance, begin, resume, run_op,
      fetchUserFromToken_begin, fetchUserFromToken_fetched,
      fetchUserFromToken_parsed, credentials_call_begin,
      credentials_call_fetched, credentials_call_parsed.
  - unfold initialize, getToken, localStorage_getItem, bind, ret.
    destruct (localStorage w !! "authToken") as [t|]; [|reflexivity].
    destruct (token_truthy (Some t)); [|reflexivity].
    run_M. fold (me_request t).
    destruct (net (me_request t)) as [r|e]; simpl; [|reflexivity].
    destruct (ok r); simpl; [|reflexivity].
    destruct (json r) as [d|e]; simpl; [|reflexivity].
    destruct (get_prop d "user"); reflexivity.
  - run_M. fold (me_request token).
    destruct (net (me_request token)) as [r|e]; simpl; [|reflexivity].
    destruct (ok r); simpl; [|reflexivity].
    destruct (json r) as [d|e]; simpl; [|reflexivity].
    destruct (get_prop d "user"); reflexivity.
  - run_M. fold (login_request email password).
    destruct (net (login_request email password)) as [r|e]; simpl;
      [|reflexivity].
    destruct (ok r); simpl.
    + destruct (json r) as [d|e]; simpl; [|reflexivity].
      destruct (get_prop d "token") as [tok|e]; simpl; [|reflexivity].
      destruct (ToString tok) as [s|e]; simpl; [|reflexivity].
      destruct (get_prop d "user"); reflexivity.
    + destruct (json r) as [d|e]; simpl; [|reflexivity].
      destruct (get_prop d "message") as [m|e]; simpl; [|reflexivity].
      destruct (ToString (js_or m (VStr "Login failed"))); reflexivity.
  - run_M. fold (register_request name email password).
    destruct (net (register_request name email password)) as [r|e]; simpl;
      [|reflexivity].
    destruct (ok r); simpl.
    + destruct (json r) as [d|e]; simpl; [|reflexivity].
      destruct (get_prop d "token") as [tok|e]; simpl; [|reflexivity].
      destruct (ToString tok) as [s|e]; simpl; [|reflexivity].
      destruct (get_prop d "user"); reflexivity.
    + destruct (json r) as [d|e]; simpl; [|reflexivity].
      destruct (get_prop d "message") as [m|e]; simpl; [|reflexivity].
      destruct (ToString (js_or m (VStr "Registration failed"))); reflexivity.
  - reflexivity.
Qed.

(** Starting an operation does not touch the user, unless it is
    [logout]; what it leaves suspended holds no response yet. *)
Lemma begin_typed o w :
  is_User_or_null (user w) = true ->
  is_User_or_null (user (snd (begin o w))) = true
  /\ forall p, fst (begin o w) = Ok (Some p) -> typed_pending p.
Proof.
  intros Hw. destruct o as [|token|email password|name email password|];
    unfold begin, fetchUserFromToken_begin, credentials_call_begin.
  - unfold getToken, localStorage_getItem, bind, ret.
    destruct (localStorage w !! "authToken") as [t|];
      [|split; [exact Hw | discriminate]].
    destruct (token_truthy (Some t)); simpl;
      (split; [exact Hw|]); intros p H; [|discriminate H].
    injection H as <-. exact I.
  - simpl. split; [exact Hw|]. intros p H. injection H as <-. exact I.
  - simpl. split; [exact Hw|]. intros p H. injection H as <-. exact I.
  - simpl. split; [exact Hw|]. intros p H. injection H as <-. exact I.
  - run_M. split; [reflexivity | discriminate].
Qed.

(** A suspended function that goes on against a typed network writes
    [null] or a [User] to the user cell, if it writes at all. *)
Lemma resume_typed net p w :
  typed_net net -> typed_pending p ->
  is_User_or_null (user w) = true ->
  is_User_or_null (user (snd (resume net p w))) = true
  /\ forall p', fst (resume net p w) = Ok (Some p') -> typed_pending p'.
Proof.
  intros Hnet Hp Hw. destruct p as [token|r|req generic|r generic];
    unfold resume, fetchUserFromToken_fetched, fetchUserFromToken_parsed,
      credentials_call_fetched, credentials_call_parsed.
  - run_M. destruct (net (me_request token)) as [r|e] eqn:Hr; simpl;
      [|split; [reflexivity | discriminate]].
    destruct (ok r) eqn:Hok; simpl; [|split; [reflexivity | discriminate]].
    split; [exact Hw|]. intros p' H. injection H as <-.
    split; [exact Hok|]. intros _ d Hjson. eauto.
  - destruct Hp as [Hok Hty]. run_M.
    destruct (json r) as [d|e] eqn:Hjson; simpl;
      [|split; [reflexivity | discriminate]].
    destruct (Hty Hok d Hjson) as (u & -> & Hu); simpl.
    split; [|discriminate]. destruct u; try discriminate Hu; exact Hu.
  - run_M. destruct (net req) as [r|e] eqn:Hr; simpl;
      [|split; [exact Hw | discriminate]].
    split; [exact Hw|]. intros p' H. injection H as <-.
    intros Hok d Hjson. eauto.
  - run_M. destruct (ok r) eqn:Hok; simpl.
    + destruct (json r) as [d|e] eqn:Hjson; simpl;
        [|split; [exact Hw | discriminate]].
      destruct (Hp Hok d Hjson) as (u & Hu & Hty).
      destruct (get_prop d "token") as [tok|e]; simpl;
        [|split; [exact Hw | discriminate]].
      destruct (ToString tok) as [s|e]; simpl;
        [|split; [exact Hw | discriminate]].
      rewrite Hu; simpl. split; [|discriminate].
      destruct u; try discriminate Hty; exact Hty.
    + destruct (json r) as [d|e]; simpl; [|split; [exact Hw | discriminate]].
      destruct (get_prop d "message") as [m|e]; simpl;
        [|split; [exact Hw | discriminate]].
      destruct (ToString (js_or m (VStr generic))); simpl;
        split; try exact Hw; discriminate.
Qed.

Lemma settle_typed others r :
  Forall typed_pending others ->
  (forall p, fst r = Ok (Some p) -> typed_pending p) ->
  Forall typed_pending (pending (settle others r)).
Proof.
  intros Hothers Hp. unfold settle; simpl.
  destruct (fst r) as [[p|]|e]; try exact Hothers.
  constructor; [apply Hp; reflexivity | exact Hothers].
Qed.

Lemma astep_typed c c' :
  astep typed_net c c' ->
  is_User_or_null (user (world c)) = true /\ Forall typed_pending (pending c) ->
  is_User_or_null (user (world c')) = true /\ Forall typed_pending (pending c').
Proof.
  intros Hstep [Hw Hps]. destruct Hstep as [o c _|net p before after c Hnet Hsplit].
  - destruct (begin_typed o (world c) Hw) as [Hu Hp].
    split; [exact Hu | apply settle_typed; assumption].
  - rewrite Hsplit in Hps. apply Forall_app in Hps as [Hbefore Hrest].
    apply Forall_cons_iff in Hrest as [Hp Hafter].
    destruct (resume_typed net p (world c) Hnet Hp Hw) as [Hu Hp'].
    split; [exact Hu|]. apply settle_typed; [|exact Hp'].
    apply Forall_app. split; assumption.
Qed.

(** Against typed networks the user cell keeps its declared type in every
    state, whatever the interleaving. *)
Lemma areachable_typed store c :
  areachable typed_net store c ->
  is_User_or_null (user (world c)) = true /\ Forall typed_pending (pending c).
Proof.
  induction 1 as [|c c' _ IH Hstep].
  - split; [reflexivity | constructor].
  - eapply astep_typed; eassumption.
Qed.

Lemma typed_net_session_ok : typed_net (always (Ok session_ok)).
Proof.
  intros req r d Hr _ Hjson. injection Hr as <-. injection Hjson as <-.
  exists ann. split; reflexivity.
Qed.


Lemma logged_in_reachable : areachable typed_net ∅ logged_in.
Proof.
  unfold logged_in. cbv zeta.
  eapply areach_step;
    [|eapply (astep_resume typed_net (always (Ok session_ok))
                (CallJson session_ok "Login failed") [] []);
      [exact typed_net_session_ok | reflexivity]].
  eapply areach_step;
    [|eapply (astep_resume typed_net (always (Ok session_ok))
                (CallFetch (login_request "ann@x.com" "pw") "Login failed")
                [] []);
      [exact typed_net_session_ok | reflexivity]].
  eapply areach_step;
    [|eapply (astep_begin typed_net (OpLogin "ann@x.com" "pw")); reflexivity].
  apply areach_mount.
Qed.

(** ** The contract *)

(** C1, as the spec words it, does not hold: a 2xx response whose body is
    the JSON object with no members is not a well-formed success, yet
    [fetchUserFromToken] keeps the stored token (it sets the user to
    [data.user], which is [undefined]). *)
Lemma restore_keeps_token_on_unvalidated_body :
  ~ restore_clears_unless_well_formed.
Proof.
  intros H.
  destruct (H (always (Ok empty_object_ok)) "t0" returning eq_refl)
    as (_ & Htok & _).
  vm_compute in Htok. discriminate Htok.
Qed.

(** C1, amended: when the request is rejected, the status is not 2xx, or
    reading the body throws (it is not JSON, or it is the JSON [null]),
    [fetchUserFromToken] removes the token from the store, sets the user
    to [null], and resolves: the failure does not reach the caller. *)
Theorem restoreSession_fail_closed net token w :
  restore_failure (net (me_request token)) = true ->
  exists w',
    fetchUserFromToken net token w = (Ok tt, w')
    /\ localStorage w' = delete "authToken" (localStorage w)
    /\ token_of w' = None
    /\ user w' = VNull.
Proof.
  intros H. eexists. split; [apply fetchUserFromToken_cleared, H|].
  split; [reflexivity|]. split; [apply token_of_cleared | reflexivity].
Qed.

(** C2: a login answered 2xx with a body [{token, user}], the token a
    string and the user a [User], resolves; afterwards [isAuthenticated]
    is true, the user is the one the server returned and the store holds
    the token the server returned. *)
Theorem login_establishes_session net email password w r d t u :
  net (login_request email password) = Ok r -> ok r = true ->
  json r = Ok d ->
  get_prop d "token" = Ok (VStr t) -> get_prop d "user" = Ok u ->
  is_User u = true ->
  exists w',
    login net email password w = (Ok tt, w')
    /\ isAuthenticated (value w') = true
    /\ ctx_user (value w') = u
    /\ token_of w' = Some t
    /\ localStorage w' = <["authToken" := t]> (localStorage w).
Proof.
  intros Hnet Hok Hjson Htok Hu Hty. eexists. split.
  - rewrite login_shape.
    eapply credentials_call_accepted; try eassumption. reflexivity.
  - split; [exact (is_User_truthy u Hty)|]. split; [reflexivity|].
    split; [|reflexivity].
    unfold token_of; simpl. apply lookup_insert_eq.
Qed.

(** C3: from any world, [logout] returns normally; afterwards the user is
    [null], [isAuthenticated] is false, the store holds no token, and no
    request has been sent. *)
Theorem logout_ends_session w :
  exists w',
    logout w = (Ok tt, w')
    /\ user w' = VNull
    /\ isAuthenticated (value w') = false
    /\ token_of w' = None
    /\ requests w' = requests w.
Proof.
  exists (cleared w). split; [reflexivity|]. split; [reflexivity|].
  split; [reflexivity|]. split; [apply token_of_cleared | apply requests_cleared].
Qed.

(** C4, as the spec words it, does not hold: on a 500 whose body is not
    JSON the call fails with the parse error, not with an [Error] that
    carries a message. *)
Lemma login_rejection_without_message :
  ~ login_rejection_carries_message.
Proof.
  intros H.
  destruct (H (always (Ok not_json_500)) "ann@x.com" "pw" first_visit
              not_json_500 eq_refl eq_refl) as (Hres & _).
  vm_compute in Hres. discriminate Hres.
Qed.

(** C4, amended: on a non-2xx response [login] fails, leaves the user as
    it was and does not write the store; when the body is JSON whose
    [message] is a string, or is missing or otherwise falsy, the failure
    is an [Error] that carries the message if it is a non-empty string and
    [Login failed] otherwise. *)
Theorem login_rejected_contract net email password w r :
  net (login_request email password) = Ok r -> ok r = false ->
  exists e w',
    login net email password w = (Throw e, w')
    /\ user w' = user w
    /\ localStorage w' = localStorage w
    /\ storage_writes w' = storage_writes w
    /\ forall d m,
         json r = Ok d -> get_prop d "message" = Ok m ->
         is_string m || negb (truthy m) = true ->
         e = Error (message_or m "Login failed").
Proof.
  intros Hnet Hok.
  exists (rejection "Login failed" r), (fetched (login_request email password) w).
  split; [rewrite login_shape; apply credentials_call_rejected; assumption|].
  split; [reflexivity|]. split; [reflexivity|].
  split; [apply storage_writes_fetched|].
  intros d m Hjson Hm Hty. eapply rejection_message; eassumption.
Qed.



(** C6: when [GET /api/auth/me] answers 2xx with a body whose [user] can
    be read, [fetchUserFromToken] sets the user to it and neither writes
    to nor removes from the store. *)
Theorem restoreSession_success_frame net token w r d u :
  net (me_request token) = Ok r -> ok r = true -> json r = Ok d ->
  get_prop d "user" = Ok u ->
  exists w',
    fetchUserFromToken net token w = (Ok tt, w')
    /\ user w' = u
    /\ localStorage w' = localStorage w
    /\ storage_writes w' = storage_writes w.
Proof.
  intros Hnet Hok Hjson Hu. eexists.
  split; [eapply fetchUserFromToken_restored; eassumption|].
  split; [reflexivity|]. split; [reflexivity|].
  apply storage_writes_fetched.
Qed.

(** C7, as the spec words it, does not hold: after a login answered 2xx
    with a body whose [user] is the number [0], the user is [0], which is
    neither [null] nor [undefined], and [isAuthenticated] is false. *)
Lemma zero_user_is_not_authenticated :
  ~ flag_is_user_presence.
Proof.
  intros H.
  assert (reachable ∅ (snd (run_op (always (Ok zero_user_ok))
                              (OpLogin "ann@x.com" "pw") first_visit))) as Hr.
  { eapply reach_step; [apply reach_mount|]. apply step_op. reflexivity. }
  apply H in Hr. destruct Hr as [_ Hr].
  assert (false = true) as Habs; [|discriminate Habs].
  apply Hr. vm_compute. discriminate.
Qed.

(** C7, amended: [isAuthenticated] is the truthiness of the user and is
    stored nowhere; as long as the server's 2xx bodies carry a [User], in
    every state the component goes through, whatever the interleaving of
    its operations, the user is [null] or a [User] and [isAuthenticated]
    is true exactly when the user is not [null]. *)
Theorem isAuthenticated_is_user_presence store c :
  areachable typed_net store c ->
  is_User_or_null (user (world c)) = true
  /\ (isAuthenticated (value (world c)) = true
      <-> ctx_user (value (world c)) <> VNull).
Proof.
  intros Hreach. destruct (areachable_typed store c Hreach) as [Hty _].
  split; [exact Hty | exact (typed_truthy (user (world c)) Hty)].
Qed.

(** C8: when a login or a registration is answered with a non-2xx status
    and reading the body as JSON fails with [e], the call fails with that
    very [e], having only sent the request; unless [e] is itself an
    [Error] with the message [m], the failure is not [Error m]. *)
Theorem rejection_body_not_json net o req w r e :
  auth_request o = Some req ->
  net req = Ok r -> ok r = false -> json r = Throw e ->
  run_op net o w = (Throw e, fetched req w)
  /\ forall m, e <> Error m -> fst (run_op net o w) <> Throw (Error m).
Proof.
  intros Hreq Hnet Hok Hjson.
  assert (run_op net o w = (Throw e, fetched req w)) as ->.
  { destruct o; simpl in Hreq; try discriminate Hreq; injection Hreq as <-;
      simpl; [rewrite login_shape | rewrite register_shape];
      rewrite (credentials_call_rejected _ _ _ _ _ Hnet Hok);
      rewrite (rejection_not_json _ _ _ Hjson); reflexivity. }
  split; [reflexivity|]. intros m Hne; simpl. congruence.
Qed.

(** C9: when the store holds no token, [initialize] sends no request and
    leaves the user (and the whole world) as it was. *)
Theorem initialize_without_token_is_silent net w :
  token_of w = None ->
  exists w',
    initialize net w = (Ok tt, w')
    /\ requests w' = requests w
    /\ user w' = user w
    /\ w' = w.
Proof.
  intros Htok. exists w.
  split; [apply initialize_without_token, Htok|]. repeat split.
Qed.

(** C10: when a login or a registration is answered 2xx and reading the
    body as JSON fails with [e], the call fails with [e] and neither the
    store nor the user has been modified. *)
Theorem success_body_not_json net o req w r e :
  auth_request o = Some req ->
  net req = Ok r -> ok r = true -> json r = Throw e ->
  exists w',
    run_op net o w = (Throw e, w')
    /\ user w' = user w
    /\ localStorage w' = localStorage w
    /\ storage_writes w' = storage_writes w.
Proof.
  intros Hreq Hnet Hok Hjson. exists (fetched req w). split.
  - destruct o; simpl in Hreq; try discriminate Hreq; injection Hreq as <-;
      simpl; [rewrite login_shape | rewrite register_shape];
      eapply credentials_call_not_json; eassumption.
  - split; [reflexivity|]. split; [reflexivity | apply storage_writes_fetched].
Qed.

(** ** The contract on sample data *)

(** The scenarios of the spec's section 8. *)

Example stored_token_rejected :
  exists w',
    initialize (always (Ok invalid_credentials)) returning = (Ok tt, w')
    /\ token_of w' = None /\ user w' = VNull.
Proof. eexists. split; [reflexivity|]. split; reflexivity. Qed.

Example register_ann :
  exists w',
    register (always (Ok session_ok)) "Ann" "ann@x.com" "pw" first_visit
      = (Ok tt, w')
    /\ token_of w' = Some "t1"
    /\ get_prop (user w') "name" = Ok (VStr "Ann").
Proof. eexists. split; [reflexivity|]. split; reflexivity. Qed.

Example empty_object_restores_nobody :
  exists w',
    initialize (always (Ok empty_object_ok)) returning = (Ok tt, w')
    /\ token_of w' = Some "t0" /\ user w' = VUndefined
    /\ isAuthenticated (value w') = false.
Proof. eexists. split; [reflexivity|]. repeat split. Qed.

(** Each theorem above that has a premise, applied to sample data. *)

Lemma restoreSession_fail_closed_witness :
  restore_failure (always (Ok not_json_ok) (me_request "t0")) = true
  /\ exists w',
       fetchUserFromToken (always (Ok not_json_ok)) "t0" returning = (Ok tt, w')
       /\ localStorage w' = delete "authToken" (localStorage returning)
       /\ token_of w' = None
       /\ user w' = VNull.
Proof.
  split; [reflexivity|].
  apply (restoreSession_fail_closed (always (Ok not_json_ok)) "t0" returning).
  reflexivity.
Defined.

Lemma login_establishes_session_witness :
  exists w',
    login (always (Ok session_ok)) "ann@x.com" "pw" first_visit = (Ok tt, w')
    /\ isAuthenticated (value w') = true
    /\ ctx_user (value w') = ann
    /\ token_of w' = Some "t1"
    /\ localStorage w' = <["authToken" := "t1"]> (localStorage first_visit).
Proof.
  apply (login_establishes_session (always (Ok session_ok)) "ann@x.com" "pw"
           first_visit session_ok
           (VObj [("token", VStr "t1"); ("user", ann)]) "t1" ann);
    reflexivity.
Defined.

Lemma login_rejected_contract_witness :
  ok invalid_credentials = false
  /\ exists e w',
       login (always (Ok invalid_credentials)) "ann@x.com" "bad" signed_in
         = (Throw e, w')
       /\ user w' = ann
       /\ localStorage w' = localStorage signed_in
       /\ storage_writes w' = storage_writes signed_in
       /\ e = Error "Invalid credentials".
Proof.
  split; [reflexivity|].
  destruct (login_rejected_contract (always (Ok invalid_credentials))
              "ann@x.com" "bad" signed_in invalid_credentials
              eq_refl eq_refl)
    as (e & w' & Hrun & Hu & Hls & Hsw & Hmsg).
  exists e, w'. split; [exact Hrun|]. split; [exact Hu|].
  split; [exact Hls|]. split; [exact Hsw|].
  exact (Hmsg (VObj [("message", VStr "Invalid credentials")])
              (VStr "Invalid credentials") eq_refl eq_refl eq_refl).
Defined.


Lemma restoreSession_success_frame_witness :
  exists w',
    fetchUserFromToken (always (Ok session_ok)) "t0" returning = (Ok tt, w')
    /\ user w' = ann
    /\ localStorage w' = localStorage returning
    /\ storage_writes w' = storage_writes returning.
Proof.
  apply (restoreSession_success_frame (always (Ok session_ok)) "t0" returning
           session_ok (VObj [("token", VStr "t1"); ("user", ann)]) ann);
    reflexivity.
Defined.

Lemma isAuthenticated_is_user_presence_witness :
  is_User_or_null (user (world logged_in)) = true
  /\ (isAuthenticated (value (world logged_in)) = true
      <-> ctx_user (value (world logged_in)) <> VNull).
Proof.
  apply (isAuthenticated_is_user_presence ∅ logged_in).
  exact logged_in_reachable.
Defined.

Lemma rejection_body_not_json_witness :
  run_op (always (Ok not_json_500)) (OpRegister "Ann" "ann@x.com" "pw") first_visit
    = (Throw SyntaxError,
       fetched (register_request "Ann" "ann@x.com" "pw") first_visit)
  /\ fst (run_op (always (Ok not_json_500)) (OpRegister "Ann" "ann@x.com" "pw")
            first_visit)
       <> Throw (Error "Registration failed").
Proof.
  destruct (rejection_body_not_json (always (Ok not_json_500))
              (OpRegister "Ann" "ann@x.com" "pw")
              (register_request "Ann" "ann@x.com" "pw") first_visit
              not_json_500 SyntaxError eq_refl eq_refl eq_refl eq_refl)
    as (Hrun & Hne).
  split; [exact Hrun|]. apply Hne. discriminate.
Defined.

Lemma initialize_without_token_is_silent_witness :
  token_of first_visit = None
  /\ exists w',
       initialize (always (Ok session_ok)) first_visit = (Ok tt, w')
       /\ requests w' = requests first_visit
       /\ user w' = user first_visit
       /\ w' = first_visit.
Proof.
  split; [reflexivity|].
  apply (initialize_without_token_is_silent (always (Ok session_ok)) first_visit).
  reflexivity.
Defined.

Lemma success_body_not_json_witness :
  exists w',
    run_op (always (Ok not_json_ok)) (OpLogin "ann@x.com" "pw") signed_in
      = (Throw SyntaxError, w')
    /\ user w' = user signed_in
    /\ localStorage w' = localStorage signed_in
    /\ storage_writes w' = storage_writes signed_in.
Proof.
  apply (success_body_not_json (always (Ok not_json_ok))
           (OpLogin "ann@x.com" "pw") (login_request "ann@x.com" "pw")
           signed_in not_json_ok SyntaxError);
    reflexivity.
Defined.

(** ** Beyond the contract: what an operation can leave behind *)

Lemma requests_fetched req w :
  requests (fetched req w) = (requests w ++ [EvFetch req])%list.
Proof. unfold requests, fetched; simpl. apply List.filter_app. Qed.

Lemma requests_with_token s w : requests (with_token s w) = requests w.
Proof.
  unfold requests, with_token; simpl. rewrite List.filter_app; simpl.
  apply app_nil_r.
Qed.

Lemma token_truthy_nonempty t :
  token_truthy (Some t) = true -> t <> EmptyString.
Proof. intros H ->. discriminate H. Qed.

(** The mount effect either does nothing or is the restoration from the
    stored token. *)
Lemma initialize_outcome net w :
  initialize net w = (Ok tt, w)
  \/ exists t,
       token_of w = Some t /\ token_truthy (Some t) = true
       /\ initialize net w = fetchUserFromToken net t w.
Proof.
  destruct (token_of w) as [t|] eqn:Htok.
  - destruct (token_truthy (Some t)) eqn:Ht.
    + right. exists t. eauto using initialize_with_token.
    + left. unfold initialize, getToken, localStorage_getItem, bind.
      unfold token_of in Htok. rewrite Htok, Ht. reflexivity.
  - left. apply initialize_without_token, Htok.
Qed.

(** A restoration ends in one of two worlds. *)
Lemma fetchUserFromToken_outcome net token w :
  fetchUserFromToken net token w
    = (Ok tt, cleared (fetched (me_request token) w))
  \/ exists r d u,
       net (me_request token) = Ok r /\ ok r = true /\ json r = Ok d
       /\ get_prop d "user" = Ok u
       /\ fetchUserFromToken net token w
            = (Ok tt, with_user u (fetched (me_request token) w)).
Proof.
  destruct (restore_failure_or_readable (net (me_request token)))
    as [H|(r & d & u & Hnet & Hok & Hjson & Hu)].
  - left. apply fetchUserFromToken_cleared, H.
  - right. exists r, d, u.
    eauto 10 using fetchUserFromToken_restored.
Qed.

Lemma run_op_left_behind net o w : left_behind w (snd (run_op net o w)).
Proof.
  destruct o as [|token|email password|name email password|]; simpl.
  - destruct (initialize_outcome net w) as [->|(t & _ & _ & ->)];
      [constructor|].
    destruct (fetchUserFromToken_outcome net t w)
      as [->|(r & d & u & _ & _ & _ & _ & ->)]; constructor.
  - destruct (fetchUserFromToken_outcome net token w)
      as [->|(r & d & u & _ & _ & _ & _ & ->)]; constructor.
  - rewrite login_shape.
    destruct (credentials_call_outcome net (login_request email password)
                "Login failed" w)
      as [[e ->]|(r & d & tok & s & u & _ & _ & _ & _ & _ & _ & ->)];
      constructor.
  - rewrite register_shape.
    destruct (credentials_call_outcome net
                (register_request name email password)
                "Registration failed" w)
      as [[e ->]|(r & d & tok & s & u & _ & _ & _ & _ & _ & _ & ->)];
      constructor.
  - exact (lb_logout w).
Qed.

Lemma credentials_call_depends_on_response net1 net2 req1 req2 generic w :
  net1 req1 = net2 req2 ->
  fst (credentials_call net1 req1 generic w)
    = fst (credentials_call net2 req2 generic w)
  /\ localStorage (snd (credentials_call net1 req1 generic w))
     = localStorage (snd (credentials_call net2 req2 generic w))
  /\ user (snd (credentials_call net1 req1 generic w))
     = user (snd (credentials_call net2 req2 generic w)).
Proof.
  intros H. unfold credentials_call. run_M. rewrite H.
  destruct (net2 req2) as [r|e]; [|repeat split].
  destruct (ok r); simpl.
  - destruct (json r) as [d|e]; [|repeat split].
    destruct (get_prop d "token") as [tok|e]; [|repeat split].
    destruct (ToString tok) as [s|e]; simpl; [|repeat split].
    destruct (get_prop d "user"); repeat split.
  - destruct (json r) as [d|e]; [|repeat split].
    destruct (get_prop d "message") as [m|e]; [|repeat split].
    destruct (ToString (js_or m (VStr generic))); repeat split.
Qed.

(** ** Beyond the contract: properties of the operations *)

(** X1: a registration answered 2xx with a body [{token, user}], the token
    a string and the user a [User], resolves; afterwards the user is the
    returned one, [isAuthenticated] is true and the store holds the
    returned token. *)
Theorem register_establishes_session net name email password w r d t u :
  net (register_request name email password) = Ok r -> ok r = true ->
  json r = Ok d ->
  get_prop d "token" = Ok (VStr t) -> get_prop d "user" = Ok u ->
  is_User u = true ->
  exists w',
    register net name email password w = (Ok tt, w')
    /\ isAuthenticated (value w') = true
    /\ ctx_user (value w') = u
    /\ token_of w' = Some t
    /\ localStorage w' = <["authToken" := t]> (localStorage w).
Proof.
  intros Hnet Hok Hjson Htok Hu Hty. eexists. split.
  - rewrite register_shape.
    eapply credentials_call_accepted; try eassumption. reflexivity.
  - split; [exact (is_User_truthy u Hty)|]. split; [reflexivity|].
    split; [|reflexivity].
    unfold token_of; simpl. apply lookup_insert_eq.
Qed.

(** X2: a registration answered with a non-2xx status whose body is JSON
    with a [message] that is a string (or is missing or otherwise falsy)
    fails with an [Error] carrying the message if it is a non-empty string
    and [Registration failed] otherwise; user and store are as before. *)
Theorem register_rejected_contract net name email password w r d m :
  net (register_request name email password) = Ok r -> ok r = false ->
  json r = Ok d -> get_prop d "message" = Ok m ->
  is_string m || negb (truthy m) = true ->
  exists w',
    register net name email password w
      = (Throw (Error (message_or m "Registration failed")), w')
    /\ user w' = user w
    /\ localStorage w' = localStorage w
    /\ storage_writes w' = storage_writes w.
Proof.
  intros Hnet Hok Hjson Hm Hty.
  exists (fetched (register_request name email password) w). split.
  - rewrite register_shape, (credentials_call_rejected _ _ _ _ _ Hnet Hok).
    rewrite (rejection_message _ _ _ _ Hjson Hm Hty). reflexivity.
  - split; [reflexivity|]. split; [reflexivity | apply storage_writes_fetched].
Qed.

(** X3: whenever a login or a registration fails, whatever the reason
    (no response, bad status, unreadable body, a body that is [null], a
    token that cannot be converted), the user and the store are exactly as
    before: the only effect is the request that was sent. *)
Theorem failed_call_changes_nothing net o req w e :
  auth_request o = Some req ->
  fst (run_op net o w) = Throw e ->
  snd (run_op net o w) = fetched req w.
Proof.
  intros Hreq Hres.
  assert (exists generic, run_op net o w = credentials_call net req generic w)
    as [generic Hrun].
  { destruct o; simpl in Hreq; try discriminate Hreq;
      injection Hreq as <-; eexists; reflexivity. }
  rewrite Hrun in *.
  destruct (credentials_call_outcome net req generic w)
    as [[e' Hc]|(r & d & tok & s & u & _ & _ & _ & _ & _ & _ & Hc)];
    rewrite Hc in *; [reflexivity | discriminate Hres].
Qed.

(** X4: the mount effect never rejects, whatever the store holds and
    whatever the network does. *)
Theorem initialize_never_rejects net w :
  fst (initialize net w) = Ok tt.
Proof.
  destruct (initialize_outcome net w) as [->|(t & _ & _ & ->)];
    [reflexivity | apply fetchUserFromToken_never_throws].
Qed.

(** X5: with a non-empty token [t] in the store, the mount effect sends
    exactly one request, [GET /api/auth/me] with the header
    [Authorization: Bearer t]; afterwards either the token is gone and the
    user is [null], or the token is still [t] and the user is the [user]
    of a 2xx body. *)
Theorem initialize_with_token_restores net w t :
  token_of w = Some t -> token_truthy (Some t) = true ->
  exists w',
    initialize net w = (Ok tt, w')
    /\ requests w' = (requests w ++ [EvFetch (me_request t)])%list
    /\ ((token_of w' = None /\ user w' = VNull)
        \/ (token_of w' = Some t
            /\ exists r d,
                 net (me_request t) = Ok r /\ ok r = true /\ json r = Ok d
                 /\ get_prop d "user" = Ok (user w'))).
Proof.
  intros Htok Ht. rewrite (initialize_with_token net w t Htok Ht).
  destruct (fetchUserFromToken_outcome net t w)
    as [->|(r & d & u & Hnet & Hok & Hjson & Hu & ->)]; eexists;
    (split; [reflexivity|]); split.
  - rewrite requests_cleared. apply requests_fetched.
  - left. split; [apply token_of_cleared | reflexivity].
  - apply requests_fetched.
  - right. split; [exact Htok|]. exists r, d. auto.
Qed.

(** X6: a stored token that is the empty string is treated as no token:
    the mount effect sends nothing and changes nothing, and the empty
    token stays in the store. *)
Theorem initialize_with_blank_token net w :
  token_of w = Some EmptyString ->
  exists w',
    initialize net w = (Ok tt, w')
    /\ w' = w
    /\ requests w' = requests w
    /\ token_of w' = Some EmptyString.
Proof.
  intros Htok. exists w. split; [|auto].
  unfold token_of in Htok. run_M. rewrite Htok. reflexivity.
Qed.

(** X7: no operation changes any key of [localStorage] but [authToken]:
    every other key holds afterwards what it held before. *)
Theorem other_keys_untouched net o w k :
  k <> "authToken" ->
  localStorage (snd (run_op net o w)) !! k = localStorage w !! k.
Proof.
  intros Hk.
  destruct (run_op_left_behind net o w); simpl;
    rewrite ?lookup_delete_ne, ?lookup_insert_ne by congruence; reflexivity.
Qed.

(** X8: an operation only appends to the trace of effects, and what it
    appends holds at most one request. *)
Theorem at_most_one_request net o w :
  exists evs,
    trace (snd (run_op net o w)) = (trace w ++ evs)%list
    /\ (length (List.filter is_fetch evs) <= 1)%nat.
Proof.
  destruct (run_op_left_behind net o w); simpl.
  - exists []. split; [symmetry; apply app_nil_r | simpl; lia].
  - eexists. split; [reflexivity | simpl; lia].
  - eexists. split; [reflexivity | simpl; lia].
  - eexists. split; [rewrite <- app_assoc; reflexivity | simpl; lia].
  - eexists. split; [reflexivity | simpl; lia].
  - eexists. split; [rewrite <- app_assoc; reflexivity | simpl; lia].
Qed.

(** X9: a login or a registration sends its request whatever happens
    next, sends no other, and sends it before it writes anything. *)
Theorem call_sends_its_request_first net o req w :
  auth_request o = Some req ->
  exists evs,
    trace (snd (run_op net o w)) = (trace w ++ EvFetch req :: evs)%list
    /\ List.filter is_fetch evs = [].
Proof.
  intros Hreq.
  assert (exists generic, run_op net o w = credentials_call net req generic w)
    as [generic ->].
  { destruct o; simpl in Hreq; try discriminate Hreq;
      injection Hreq as <-; eexists; reflexivity. }
  destruct (credentials_call_outcome net req generic w)
    as [[e ->]|(r & d & tok & s & u & _ & _ & _ & _ & _ & _ & ->)]; simpl.
  - exists []. split; reflexivity.
  - eexists. split; [rewrite <- app_assoc; reflexivity | reflexivity].
Qed.

(** X10: after [logout], a page reload finds no token: the mount effect
    sends no request and the user stays [null]. *)
Theorem logout_survives_reload net w :
  exists w',
    initialize net (reload (snd (logout w))) = (Ok tt, w')
    /\ user w' = VNull
    /\ token_of w' = None
    /\ requests w' = requests w.
Proof.
  exists (reload (cleared w)). split.
  - apply initialize_without_token. exact (token_of_cleared w).
  - split; [reflexivity|]. split; [exact (token_of_cleared w)|].
    exact (requests_cleared w).
Qed.

(** X11: a restoration that fails once is final: the token is gone, so
    after the next page reload the mount effect does not ask the server
    again, whatever the network would answer then. *)
Theorem failed_restoration_is_final net net2 w t :
  token_of w = Some t -> token_truthy (Some t) = true ->
  restore_failure (net (me_request t)) = true ->
  exists w',
    initialize net2 (reload (snd (initialize net w))) = (Ok tt, w')
    /\ user w' = VNull
    /\ token_of w' = None
    /\ requests w' = (requests w ++ [EvFetch (me_request t)])%list.
Proof.
  intros Htok Ht Hfail.
  rewrite (initialize_with_token net w t Htok Ht).
  rewrite (fetchUserFromToken_cleared net t w Hfail); simpl.
  exists (reload (cleared (fetched (me_request t) w))). split.
  - apply initialize_without_token.
    exact (token_of_cleared (fetched (me_request t) w)).
  - split; [reflexivity|].
    split; [exact (token_of_cleared (fetched (me_request t) w))|].
    change (requests (cleared (fetched (me_request t) w))
            = (requests w ++ [EvFetch (me_request t)])%list).
    rewrite requests_cleared. apply requests_fetched.
Qed.

(** X12: a session survives a page reload. After a login or registration
    that stored the non-empty token [t], the mount effect of the next page
    load asks [GET /api/auth/me] with [Bearer t]; if that is answered 2xx
    with a body whose [user] is [u2], the user is [u2] and the token is
    still [t]. *)
Theorem session_survives_reload net net2 o req w r d t u r2 d2 u2 :
  auth_request o = Some req ->
  net req = Ok r -> ok r = true -> json r = Ok d ->
  get_prop d "token" = Ok (VStr t) -> get_prop d "user" = Ok u ->
  token_truthy (Some t) = true ->
  net2 (me_request t) = Ok r2 -> ok r2 = true -> json r2 = Ok d2 ->
  get_prop d2 "user" = Ok u2 ->
  exists w',
    initialize net2 (reload (snd (run_op net o w))) = (Ok tt, w')
    /\ user w' = u2
    /\ token_of w' = Some t
    /\ requests w'
       = (requests w ++ [EvFetch req; EvFetch (me_request t)])%list.
Proof.
  intros Hreq Hnet Hok Hjson Htok Hu Ht Hnet2 Hok2 Hjson2 Hu2.
  assert (run_op net o w
          = (Ok tt, with_user u (with_token t (fetched req w)))) as ->.
  { destruct o; simpl in Hreq; try discriminate Hreq; injection Hreq as <-;
      simpl; [rewrite login_shape | rewrite register_shape];
      eapply credentials_call_accepted; try eassumption; reflexivity. }
  simpl.
  set (w1 := reload (with_user u (with_token t (fetched req w)))).
  assert (token_of w1 = Some t) as Htok1
    by exact (token_of_with_token t (fetched req w)).
  rewrite (initialize_with_token net2 w1 t Htok1 Ht).
  rewrite (fetchUserFromToken_restored net2 t w1 r2 d2 u2 Hnet2 Hok2 Hjson2 Hu2).
  eexists. split; [reflexivity|]. split; [reflexivity|].
  split; [exact Htok1|].
  change (requests (fetched (me_request t) (with_token t (fetched req w)))
          = (requests w ++ [EvFetch req; EvFetch (me_request t)])%list).
  rewrite requests_fetched, requests_with_token, requests_fetched.
  rewrite <- app_assoc. reflexivity.
Qed.

(** X13: the credentials reach the session only through the server's
    answer: two logins that get the same answer end with the same result,
    the same store and the same user, whatever email and password each was
    given. *)
Theorem login_depends_on_response_only net1 net2 email1 password1 email2 password2 w :
  net1 (login_request email1 password1) = net2 (login_request email2 password2) ->
  fst (login net1 email1 password1 w) = fst (login net2 email2 password2 w)
  /\ localStorage (snd (login net1 email1 password1 w))
     = localStorage (snd (login net2 email2 password2 w))
  /\ user (snd (login net1 email1 password1 w))
     = user (snd (login net2 email2 password2 w)).
Proof.
  intros H. rewrite !login_shape.
  apply credentials_call_depends_on_response, H.
Qed.

(** X14: [useAuth] fails exactly when no [AuthProvider] encloses the
    caller, and then with the error that says so; otherwise it returns the
    value of the innermost provider, whose [isAuthenticated] is the
    truthiness of its [user], logged in or not. *)
Theorem useAuth_guard enclosing :
  (useAuth enclosing
     = Throw (Error "useAuth must be used within an AuthProvider")
   <-> enclosing = [])
  /\ (forall context,
        useAuth enclosing = Ok context <->
        exists w rest, enclosing = w :: rest /\ context = value w)
  /\ (forall context,
        useAuth enclosing = Ok context ->
        isAuthenticated context = truthy (ctx_user context)).
Proof.
  destruct enclosing as [|w rest]; unfold useAuth; simpl.
  - split; [tauto|]. split.
    + intros c. split; [discriminate|]. intros (w & rest & H & _).
      discriminate H.
    + intros c H. discriminate H.
  - split; [split; discriminate|]. split.
    + intros c. split.
      * intros H. injection H as <-. eauto.
      * intros (w' & rest' & H & ->). injection H as -> _. reflexivity.
    + intros c H. injection H as <-. reflexivity.
Qed.

(** X15: a login or registration answered 2xx with a body that has no
    [token] still resolves, and stores the text [undefined] as the token;
    the user becomes whatever the body's [user] is. *)
Theorem missing_token_is_stored_as_text net o req w r d :
  auth_request o = Some req ->
  net req = Ok r -> ok r = true -> json r = Ok d ->
  get_prop d "token" = Ok VUndefined ->
  exists w',
    run_op net o w = (Ok tt, w')
    /\ token_of w' = Some "undefined"
    /\ get_prop d "user" = Ok (user w').
Proof.
  intros Hreq Hnet Hok Hjson Htok.
  destruct (get_prop_total _ _ "user" _ Htok) as [u Hu].
  exists (with_user u (with_token "undefined" (fetched req w))). split.
  - destruct o; simpl in Hreq; try discriminate Hreq; injection Hreq as <-;
      simpl; [rewrite login_shape | rewrite register_shape];
      eapply credentials_call_accepted; try eassumption; reflexivity.
  - split; [exact (token_of_with_token "undefined" (fetched req w)) | exact Hu].
Qed.

(** An operation leaves every key but [authToken] alone. *)
Lemma run_op_frame net o w k :
  k <> "authToken" ->
  localStorage (snd (run_op net o w)) !! k = localStorage w !! k.
Proof.
  intros Hk.
  destruct (run_op_left_behind net o w); simpl;
    rewrite ?lookup_delete_ne, ?lookup_insert_ne by congruence; reflexivity.
Qed.

(** X17: along any run of operations from a mount, a store without a
    token goes with a user that is [null], and every key of the store but
    [authToken] still holds what it held at the mount. *)
Theorem reachable_invariants store w k :
  reachable store w -> k <> "authToken" ->
  consistent w /\ localStorage w !! k = store !! k.
Proof.
  intros Hreach Hk. induction Hreach as [|w w' _ [IHc IHk] Hstep].
  - split; [intros _; reflexivity | reflexivity].
  - destruct Hstep as [net o w Hen]. split.
    + apply run_op_consistent; assumption.
    + rewrite run_op_frame by exact Hk. exact IHk.
Qed.

(** ** The same properties on sample data *)

Lemma register_establishes_session_witness :
  exists w',
    register (always (Ok session_ok)) "Ann" "ann@x.com" "pw" first_visit
      = (Ok tt, w')
    /\ isAuthenticated (value w') = true
    /\ ctx_user (value w') = ann
    /\ token_of w' = Some "t1"
    /\ localStorage w' = <["authToken" := "t1"]> (localStorage first_visit).
Proof.
  apply (register_establishes_session (always (Ok session_ok))
           "Ann" "ann@x.com" "pw" first_visit session_ok
           (VObj [("token", VStr "t1"); ("user", ann)]) "t1" ann);
    reflexivity.
Defined.

Lemma register_rejected_contract_witness :
  ok email_taken = false
  /\ exists w',
       register (always (Ok email_taken)) "Ann" "ann@x.com" "pw" signed_in
         = (Throw (Error "Email already registered"), w')
       /\ user w' = user signed_in
       /\ localStorage w' = localStorage signed_in
       /\ storage_writes w' = storage_writes signed_in.
Proof.
  split; [reflexivity|].
  apply (register_rejected_contract (always (Ok email_taken))
           "Ann" "ann@x.com" "pw" signed_in email_taken
           (VObj [("message", VStr "Email already registered")])
           (VStr "Email already registered"));
    reflexivity.
Defined.

Lemma failed_call_changes_nothing_witness :
  fst (run_op (always (Ok null_body_ok)) (OpLogin "ann@x.com" "pw") signed_in)
    = Throw TypeError
  /\ snd (run_op (always (Ok null_body_ok)) (OpLogin "ann@x.com" "pw") signed_in)
     = fetched (login_request "ann@x.com" "pw") signed_in.
Proof.
  split; [reflexivity|].
  apply (failed_call_changes_nothing (always (Ok null_body_ok))
           (OpLogin "ann@x.com" "pw") (login_request "ann@x.com" "pw")
           signed_in TypeError);
    reflexivity.
Defined.

Lemma initialize_with_token_restores_witness :
  token_of returning = Some "t0"
  /\ exists w',
       initialize (always (Ok session_ok)) returning = (Ok tt, w')
       /\ requests w' = (requests returning ++ [EvFetch (me_request "t0")])%list
       /\ ((token_of w' = None /\ user w' = VNull)
           \/ (token_of w' = Some "t0"
               /\ exists r d,
                    always (Ok session_ok) (me_request "t0") = Ok r
                    /\ ok r = true /\ json r = Ok d
                    /\ get_prop d "user" = Ok (user w'))).
Proof.
  split; [reflexivity|].
  apply (initialize_with_token_restores (always (Ok session_ok)) returning "t0");
    reflexivity.
Defined.

Lemma initialize_with_blank_token_witness :
  exists w',
    initialize (always (Ok session_ok)) blank_token = (Ok tt, w')
    /\ w' = blank_token
    /\ requests w' = requests blank_token
    /\ token_of w' = Some EmptyString.
Proof.
  apply (initialize_with_blank_token (always (Ok session_ok)) blank_token).
  reflexivity.
Defined.

Lemma other_keys_untouched_witness :
  localStorage with_theme !! "theme" = Some "dark"
  /\ localStorage (snd (run_op (always (Ok session_ok)) OpLogout with_theme))
       !! "theme"
     = localStorage with_theme !! "theme".
Proof.
  split; [reflexivity|].
  apply (other_keys_untouched (always (Ok session_ok)) OpLogout with_theme "theme").
  discriminate.
Defined.

Lemma call_sends_its_request_first_witness :
  exists evs,
    trace (snd (run_op (always (Ok session_ok))
                  (OpRegister "Ann" "ann@x.com" "pw") first_visit))
      = (trace first_visit
           ++ EvFetch (register_request "Ann" "ann@x.com" "pw") :: evs)%list
    /\ List.filter is_fetch evs = [].
Proof.
  apply (call_sends_its_request_first (always (Ok session_ok))
           (OpRegister "Ann" "ann@x.com" "pw")
           (register_request "Ann" "ann@x.com" "pw") first_visit).
  reflexivity.
Defined.

Lemma failed_restoration_is_final_witness :
  restore_failure (always (Throw TypeError) (me_request "t0")) = true
  /\ exists w',
       initialize (always (Ok session_ok))
         (reload (snd (initialize (always (Throw TypeError)) returning)))
         = (Ok tt, w')
       /\ user w' = VNull
       /\ token_of w' = None
       /\ requests w' = (requests returning ++ [EvFetch (me_request "t0")])%list.
Proof.
  split; [reflexivity|].
  apply (failed_restoration_is_final (always (Throw TypeError))
           (always (Ok session_ok)) returning "t0");
    reflexivity.
Defined.

Lemma session_survives_reload_witness :
  exists w',
    initialize (always (Ok session_ok))
      (reload (snd (run_op (always (Ok session_ok))
                      (OpLogin "ann@x.com" "pw") first_visit)))
      = (Ok tt, w')
    /\ user w' = ann
    /\ token_of w' = Some "t1"
    /\ requests w'
       = (requests first_visit
            ++ [EvFetch (login_request "ann@x.com" "pw");
                EvFetch (me_request "t1")])%list.
Proof.
  apply (session_survives_reload (always (Ok session_ok))
           (always (Ok session_ok)) (OpLogin "ann@x.com" "pw")
           (login_request "ann@x.com" "pw") first_visit session_ok
           (VObj [("token", VStr "t1"); ("user", ann)]) "t1" ann session_ok
           (VObj [("token", VStr "t1"); ("user", ann)]) ann);
    reflexivity.
Defined.

Lemma login_depends_on_response_only_witness :
  fst (login (always (Ok session_ok)) "ann@x.com" "pw" first_visit)
    = fst (login (always (Ok session_ok)) "bob@x.com" "other" first_visit)
  /\ localStorage (snd (login (always (Ok session_ok)) "ann@x.com" "pw" first_visit))
     = localStorage
         (snd (login (always (Ok session_ok)) "bob@x.com" "other" first_visit))
  /\ user (snd (login (always (Ok session_ok)) "ann@x.com" "pw" first_visit))
     = user (snd (login (always (Ok session_ok)) "bob@x.com" "other" first_visit)).
Proof.
  apply (login_depends_on_response_only (always (Ok session_ok))
           (always (Ok session_ok)) "ann@x.com" "pw" "bob@x.com" "other"
           first_visit).
  reflexivity.
Defined.

Lemma missing_token_is_stored_as_text_witness :
  exists w',
    run_op (always (Ok empty_object_ok)) (OpLogin "ann@x.com" "pw") first_visit
      = (Ok tt, w')
    /\ token_of w' = Some "undefined"
    /\ get_prop (VObj []) "user" = Ok (user w').
Proof.
  apply (missing_token_is_stored_as_text (always (Ok empty_object_ok))
           (OpLogin "ann@x.com" "pw") (login_request "ann@x.com" "pw")
           first_visit empty_object_ok (VObj []));
    reflexivity.
Defined.

Lemma reachable_invariants_witness :
  consistent (snd (run_op (always (Ok session_ok)) OpLogout
                     (snd (run_op (always (Ok session_ok))
                             (OpLogin "ann@x.com" "pw") (mount {["theme" := "dark"]})))))
  /\ localStorage (snd (run_op (always (Ok session_ok)) OpLogout
                          (snd (run_op (always (Ok session_ok))
                                  (OpLogin "ann@x.com" "pw")
                                  (mount {["theme" := "dark"]})))))
       !! "theme"
     = ({["theme" := "dark"]} : gmap string string) !! "theme".
Proof.
  apply (reachable_invariants {["theme" := "dark"]}
           (snd (run_op (always (Ok session_ok)) OpLogout
                   (snd (run_op (always (Ok session_ok))
                           (OpLogin "ann@x.com" "pw")
                           (mount {["theme" := "dark"]})))))
           "theme").
  - apply reach_step
      with (w := snd (run_op (always (Ok session_ok))
                        (OpLogin "ann@x.com" "pw") (mount {["theme" := "dark"]}))).
    + apply reach_step with (w := mount {["theme" := "dark"]}).
      * apply reach_mount.
      * apply step_op. reflexivity.
    + apply step_op. reflexivity.
  - discriminate.
Defined.
